(** * CallbackContext: a shallow embedding of [telegram/ext/_callbackcontext.py]

    The class is a thin carrier object.  Its slots hold arbitrary Python
    objects ([update] writes whatever it is given with [setattr]), so the
    slots are modelled over a small universe of dynamic values; exceptions
    are an explicit outcome; the Application, whose per-chat and per-user
    stores are mutated by a look-up that creates missing entries, is a
    state that the constructors thread through. *)

From Stdlib Require Import ZArith List String Bool Lia.
From stdpp Require Import base option gmap strings.
Import ListNotations.
Local Open Scope string_scope.

(** ** Exceptions and outcomes *)

(** The exception classes the module raises or catches.  The spec calls
    [AttributeError] "InvalidOperation", [RuntimeError] "CapabilityError"
    and [KeyError] "NotFoundError". *)
Inductive exn_class : Type :=
| AttributeError
| RuntimeError
| KeyError
| IndexError
| TypeError
| OtherError (name : string).

(** An exception object: its class and, where the source text fixes it,
    its message ([None] stands for the interpreter's own wording). *)
Record exn : Type := Exn { exn_cls : exn_class; exn_msg : option string }.

Inductive outcome (A : Type) : Type :=
| Return (a : A)
| Raise (e : exn).
Arguments Return {A} a.
Arguments Raise {A} e.

Definition raises {A : Type} (o : outcome A) (c : exn_class) : Prop :=
  exists msg, o = Raise (Exn c msg).

Definition returns {A : Type} (o : outcome A) : Prop :=
  exists a, o = Return a.

(** ** Objects *)

(** Identity of a shared data object owned by the Application: the single
    bot-data object, or the n-th object created by the chat (user) store. *)
Inductive handle : Type :=
| BotData
| ChatData (serial : nat)
| UserData (serial : nat).

(** [re.Match]: group 0 is the whole match, further groups may not have
    taken part in the match. *)
Record Match : Type := { group0 : string; subgroups : list (option string) }.

(** [telegram.ext.Job], as far as this module reads it. *)
Record Job : Type := { job_chat_id : option Z; job_user_id : option Z }.

(** The Python objects that can sit in a slot of the context. *)
#[local] Set Warnings "-register-all".
Inductive value : Type :=
| VNone
| VBool (b : bool)
| VInt (n : Z)
| VStr (s : string)
| VList (items : list value)
| VTuple (items : list value)
| VDict (entries : list (string * value))
| VData (h : handle)
| VMatch (m : Match)
| VError (e : exn)
| VJob (j : Job)
| VCoroutine (c : nat)
| VApplication.
#[local] Set Warnings "register-all".

(** Truth value of an object, as [if obj:] tests it.  Data objects are
    instances of the type parameters BD, CD, UD; they are kept opaque and
    count as true, like any object without [__bool__] or [__len__]. *)
Definition truthy (v : value) : bool :=
  match v with
  | VNone => false
  | VBool b => b
  | VInt n => negb (n =? 0)%Z
  | VStr s => negb (String.eqb s "")
  | VList items | VTuple items => negb (Nat.eqb (length items) 0)
  | VDict entries => negb (Nat.eqb (length entries) 0)
  | _ => true
  end.

(** [obj[i]] for a literal index [i >= 0]. *)
Definition getitem (v : value) (i : nat) : outcome value :=
  match v with
  | VList items | VTuple items =>
      match nth_error items i with
      | Some x => Return x
      | None => Raise (Exn IndexError None)
      end
  | VStr s =>
      match String.get i s with
      | Some c => Return (VStr (String c EmptyString))
      | None => Raise (Exn IndexError None)
      end
  | VDict _ => Raise (Exn KeyError None)
  | VMatch m =>
      match i with
      | O => Return (VStr (group0 m))
      | S j =>
          match nth_error (subgroups m) j with
          | Some (Some s) => Return (VStr s)
          | Some None => Return VNone
          | None => Raise (Exn IndexError None)
          end
      end
  | _ => Raise (Exn TypeError None)
  end.

Fixpoint chars (s : string) : list value :=
  match s with
  | EmptyString => []
  | String c rest => VStr (String c EmptyString) :: chars rest
  end.

(** The items [*obj] unpacks, [None] when [obj] is not iterable. *)
Definition iterate (v : value) : option (list value) :=
  match v with
  | VList items | VTuple items => Some items
  | VStr s => Some (chars s)
  | VDict entries => Some (map (fun kv => VStr (fst kv)) entries)
  | _ => None
  end.

(** ** The collaborators: Application, bot client, persistence *)

Record Chat : Type := { chat_id : Z }.
Record User : Type := { user_id : Z }.

(** [telegram.Update]: only the two derived attributes the module reads. *)
Record Update : Type :=
  { effective_chat : option Chat; effective_user : option User }.

(** What [from_update] and [from_error] may be handed as [update]. *)
Inductive update_arg : Type :=
| NoUpdate
| OtherObject (v : value)
| AnUpdate (u : Update).

Record CallbackQuery : Type := { query_id : string }.

(** Modelled from the spec: the bot client's callback-data cache, whose
    class is not part of this module.  It has a query index (callback
    query token to cache key) and a data index (cache key to payload). *)
Record CallbackDataCache : Type :=
  { query_index : gmap string string; data_index : gmap string value }.

(** Modelled from the spec: the cache's drop-by-query operation.  A token
    missing from the query index is a [KeyError] and leaves the cache as it
    was; otherwise the payload under the associated key is removed, and a
    key without payload is passed over silently. *)
Definition drop_data (cache : CallbackDataCache) (callback_query : CallbackQuery)
  : outcome unit * CallbackDataCache :=
  match query_index cache !! query_id callback_query with
  | None => (Raise (Exn KeyError None), cache)
  | Some key =>
      (Return tt,
       {| query_index := query_index cache;
          data_index := delete key (data_index cache) |})
  end.

(** Modelled from the spec: the bot client.  A plain [telegram.Bot] has no
    arbitrary callback data; an [ExtBot] has the capability flag and the
    cache. *)
Inductive Bot : Type :=
| PlainBot
| ExtBot (arbitrary_callback_data : bool) (callback_data_cache : CallbackDataCache).

(** Modelled from the spec: the persistence backend's per-category flags
    ([persistence.store_data]). *)
Record PersistenceInput : Type :=
  { store_bot_data : bool; store_chat_data : bool; store_user_data : bool }.

(** Modelled from the spec: a per-id store of the Application, with
    create-if-absent look-up. [created] counts the objects made so far. *)
Record DataStore : Type :=
  { entries : gmap Z handle; created : nat }.

Definition store_getitem (mk : nat -> handle) (id : Z) (store : DataStore)
  : handle * DataStore :=
  match entries store !! id with
  | Some h => (h, store)
  | None =>
      let h := mk (created store) in
      (h, {| entries := <[id := h]> (entries store);
             created := S (created store) |})
  end.

(** Modelled from the spec: the Application, as far as the context
    consumes it.  Its bot data is the one object [BotData]. *)
Record Application : Type :=
  { app_bot : Bot;
    app_chat_data : DataStore;
    app_user_data : DataStore;
    app_persistence : option PersistenceInput }.

Definition with_chat_data (app : Application) (store : DataStore) : Application :=
  {| app_bot := app_bot app;
     app_chat_data := store;
     app_user_data := app_user_data app;
     app_persistence := app_persistence app |}.

Definition with_user_data (app : Application) (store : DataStore) : Application :=
  {| app_bot := app_bot app;
     app_chat_data := app_chat_data app;
     app_user_data := store;
     app_persistence := app_persistence app |}.

Definition with_bot (app : Application) (b : Bot) : Application :=
  {| app_bot := b;
     app_chat_data := app_chat_data app;
     app_user_data := app_user_data app;
     app_persistence := app_persistence app |}.

(** [application.chat_data[id]] and [application.user_data[id]]. *)
Definition chat_data_getitem (id : Z) (app : Application) : handle * Application :=
  let '(h, store) := store_getitem ChatData id (app_chat_data app) in
  (h, with_chat_data app store).

Definition user_data_getitem (id : Z) (app : Application) : handle * Application :=
  let '(h, store) := store_getitem UserData id (app_user_data app) in
  (h, with_user_data app store).

(** The calls made on the persistence backend, in the order made. *)
Inductive hook_call : Type :=
| refresh_bot_data (bot_data : value)
| refresh_chat_data (chat_id : value) (chat_data : value)
| refresh_user_data (user_id : value) (user_data : value).

(** ** The context object *)

Definition _STORING_DATA_WIKI : string :=
  "https://github.com/python-telegram-bot/python-telegram-bot"
  ++ "/wiki/Storing-bot%2C-user-and-chat-related-data".

(** The instance: the eight slots of [__slots__] and the instance
    [__dict__] that holds every other attribute. *)
Record CallbackContext : Type :=
  { _application : value;
    _chat_id_and_data : value;
    _user_id_and_data : value;
    args : value;
    matches : value;
    error : value;
    job : value;
    coroutine : value;
    __dict__ : gmap string value }.

(** [__init__]. *)
Definition __init__ : CallbackContext :=
  {| _application := VApplication;
     _chat_id_and_data := VNone;
     _user_id_and_data := VNone;
     args := VNone;
     matches := VNone;
     error := VNone;
     job := VNone;
     coroutine := VNone;
     __dict__ := ∅ |}.

Inductive slot : Type :=
| slot_application
| slot_chat_id_and_data
| slot_user_id_and_data
| slot_args
| slot_matches
| slot_error
| slot_job
| slot_coroutine.

Definition slot_name (s : slot) : string :=
  match s with
  | slot_application => "_application"
  | slot_chat_id_and_data => "_chat_id_and_data"
  | slot_user_id_and_data => "_user_id_and_data"
  | slot_args => "args"
  | slot_matches => "matches"
  | slot_error => "error"
  | slot_job => "job"
  | slot_coroutine => "coroutine"
  end.

Definition all_slots : list slot :=
  [slot_application; slot_chat_id_and_data; slot_user_id_and_data; slot_args;
   slot_matches; slot_error; slot_job; slot_coroutine].

Definition get_slot (s : slot) (self : CallbackContext) : value :=
  match s with
  | slot_application => _application self
  | slot_chat_id_and_data => _chat_id_and_data self
  | slot_user_id_and_data => _user_id_and_data self
  | slot_args => args self
  | slot_matches => matches self
  | slot_error => error self
  | slot_job => job self
  | slot_coroutine => coroutine self
  end.

Definition set_slot (s : slot) (v : value) (self : CallbackContext) : CallbackContext :=
  {| _application := if s is slot_application then v else _application self;
     _chat_id_and_data := if s is slot_chat_id_and_data then v else _chat_id_and_data self;
     _user_id_and_data := if s is slot_user_id_and_data then v else _user_id_and_data self;
     args := if s is slot_args then v else args self;
     matches := if s is slot_matches then v else matches self;
     error := if s is slot_error then v else error self;
     job := if s is slot_job then v else job self;
     coroutine := if s is slot_coroutine then v else coroutine self;
     __dict__ := __dict__ self |}.

Definition set_dict (d : gmap string value) (self : CallbackContext) : CallbackContext :=
  {| _application := _application self;
     _chat_id_and_data := _chat_id_and_data self;
     _user_id_and_data := _user_id_and_data self;
     args := args self;
     matches := matches self;
     error := error self;
     job := job self;
     coroutine := coroutine self;
     __dict__ := d |}.

(** The properties of the class.  The first three have a setter. *)
Inductive property : Type :=
| prop_bot_data
| prop_chat_data
| prop_user_data
| prop_application
| prop_bot
| prop_job_queue
| prop_update_queue
| prop_match.

Definition property_name (p : property) : string :=
  match p with
  | prop_bot_data => "bot_data"
  | prop_chat_data => "chat_data"
  | prop_user_data => "user_data"
  | prop_application => "application"
  | prop_bot => "bot"
  | prop_job_queue => "job_queue"
  | prop_update_queue => "update_queue"
  | prop_match => "match"
  end.

Definition all_properties : list property :=
  [prop_bot_data; prop_chat_data; prop_user_data; prop_application; prop_bot;
   prop_job_queue; prop_update_queue; prop_match].

(** What an attribute name resolves to on the class, in the order
    [object.__setattr__] looks: a data descriptor of the class (a property,
    a slot, or [object]'s own [__dict__] and [__class__]), else the
    instance [__dict__]. *)
Inductive attr_kind : Type :=
| KProperty (p : property)
| KSlot (s : slot)
| KInstanceDict
| KClass
| KDynamic.

Definition classify (name : string) : attr_kind :=
  match find (fun p => String.eqb (property_name p) name) all_properties with
  | Some p => KProperty p
  | None =>
      match find (fun s => String.eqb (slot_name s) name) all_slots with
      | Some s => KSlot s
      | None =>
          if String.eqb name "__dict__" then KInstanceDict
          else if String.eqb name "__class__" then KClass
          else KDynamic
      end
  end.

(** ** Awaited hook calls: a trace with an outcome *)

Definition hooks (A : Type) : Type := (list hook_call * outcome A)%type.

#[export] Instance hooks_ret : MRet hooks := fun A a => ([], Return a).

#[export] Instance hooks_bind : MBind hooks := fun A B k m =>
  match m with
  | (calls, Return a) => let '(calls', r) := k a in ((calls ++ calls')%list, r)
  | (calls, Raise e) => (calls, Raise e)
  end.

(** [await persistence.hook(...)]. *)
Definition await (call : hook_call) : hooks unit := ([call], Return tt).

(** A step that calls no hook. *)
Definition lift {A : Type} (o : outcome A) : hooks A := ([], o).

(** ** Accessors *)

Definition application (self : CallbackContext) : value := _application self.

(** Reading [bot_data], [persistence] or [bot] off [self.application]:
    of the objects of the model only the Application has them. *)
Definition on_application {A : Type} (self : CallbackContext) (k : outcome A)
  : outcome A :=
  match application self with
  | VApplication => k
  | _ => Raise (Exn AttributeError None)
  end.

Definition bot_data (self : CallbackContext) : outcome value :=
  on_application self (Return (VData BotData)).

Definition bot_data_setter (self : CallbackContext) (v : value) : outcome unit :=
  Raise (Exn AttributeError
           (Some ("You can not assign a new value to bot_data, see "
                  ++ _STORING_DATA_WIKI))).

Definition chat_data (self : CallbackContext) : outcome value :=
  if truthy (_chat_id_and_data self)
  then getitem (_chat_id_and_data self) 1
  else Return VNone.

Definition chat_data_setter (self : CallbackContext) (v : value) : outcome unit :=
  Raise (Exn AttributeError
           (Some ("You can not assign a new value to chat_data, see "
                  ++ _STORING_DATA_WIKI))).

Definition user_data (self : CallbackContext) : outcome value :=
  if truthy (_user_id_and_data self)
  then getitem (_user_id_and_data self) 1
  else Return VNone.

Definition user_data_setter (self : CallbackContext) (v : value) : outcome unit :=
  Raise (Exn AttributeError
           (Some ("You can not assign a new value to user_data, see "
                  ++ _STORING_DATA_WIKI))).

Definition bot (self : CallbackContext) (app : Application) : outcome Bot :=
  on_application self (Return (app_bot app)).

(** [match]: the subscript, with [IndexError] and [TypeError] caught. *)
Definition match_ (self : CallbackContext) : outcome value :=
  match getitem (matches self) 0 with
  | Return m => Return m
  | Raise (Exn IndexError _) => Return VNone
  | Raise (Exn TypeError _) => Return VNone
  | Raise e => Raise e
  end.

(** ** Attribute assignment *)

(** [property.__set__]: the setter where there is one, else the
    interpreter's [AttributeError]. *)
Definition property_set (p : property) (self : CallbackContext) (v : value)
  : outcome unit :=
  match p with
  | prop_bot_data => bot_data_setter self v
  | prop_chat_data => chat_data_setter self v
  | prop_user_data => user_data_setter self v
  | _ => Raise (Exn AttributeError None)
  end.

Fixpoint dict_of_entries (kvs : list (string * value)) (d : gmap string value)
  : gmap string value :=
  match kvs with
  | [] => d
  | (k, v) :: rest => dict_of_entries rest (<[k := v]> d)
  end.

(** [setattr(self, name, v)]: the outcome and the instance afterwards. *)
Definition setattr (self : CallbackContext) (name : string) (v : value)
  : outcome unit * CallbackContext :=
  match classify name with
  | KProperty p => (property_set p self v, self)
  | KSlot s => (Return tt, set_slot s v self)
  | KInstanceDict =>
      match v with
      | VDict kvs => (Return tt, set_dict (dict_of_entries kvs ∅) self)
      | _ => (Raise (Exn TypeError None), self)
      end
  | KClass => (Raise (Exn TypeError None), self)
  | KDynamic => (Return tt, set_dict (<[name := v]> (__dict__ self)) self)
  end.

(** What the instance stores under a name: the slot, else the entry of
    the instance [__dict__]. *)
Definition stored (self : CallbackContext) (name : string) : option value :=
  match classify name with
  | KSlot s => Some (get_slot s self)
  | _ => __dict__ self !! name
  end.

(** ** Methods *)

Definition is_not_None (v : value) : bool :=
  match v with
  | VNone => false
  | _ => true
  end.

(** An awaited hook call with star-unpacked arguments; the hooks take
    exactly two. *)
Definition star_call (hook : value -> value -> hook_call) (packed : value)
  : hooks unit :=
  match iterate packed with
  | Some [a; b] => await (hook a b)
  | _ => lift (Raise (Exn TypeError None))
  end.

Definition refresh_data (self : CallbackContext) (app : Application) : hooks unit :=
  lift (on_application self (Return tt)) ;;
  match app_persistence app with
  | Some persistence =>
      (if store_bot_data persistence
       then data ← lift (bot_data self); await (refresh_bot_data data)
       else mret tt) ;;
      (if store_chat_data persistence && is_not_None (_chat_id_and_data self)
       then star_call refresh_chat_data (_chat_id_and_data self)
       else mret tt) ;;
      (if store_user_data persistence && is_not_None (_user_id_and_data self)
       then star_call refresh_user_data (_user_id_and_data self)
       else mret tt)
  | None => mret tt
  end.

Definition drop_callback_data (self : CallbackContext)
    (callback_query : CallbackQuery) (app : Application)
  : outcome unit * Application :=
  match bot self app with
  | Return (ExtBot arbitrary_callback_data cache) =>
      if negb arbitrary_callback_data
      then (Raise (Exn RuntimeError
                     (Some "This telegram.ext.ExtBot instance does not use arbitrary callback data.")),
            app)
      else
        let '(r, cache') := drop_data cache callback_query in
        (r, with_bot app (ExtBot arbitrary_callback_data cache'))
  | Return PlainBot =>
      (Raise (Exn RuntimeError
                (Some "telegram.Bot does not allow for arbitrary callback data.")),
       app)
  | Raise e => (Raise e, app)
  end.

Definition from_update (update : update_arg) (application : Application)
  : CallbackContext * Application :=
  let self := __init__ in
  match update with
  | AnUpdate u =>
      let chat := effective_chat u in
      let user := effective_user u in
      let '(self, application) :=
        match chat with
        | Some chat =>
            let '(data, application) := chat_data_getitem (chat_id chat) application in
            (set_slot slot_chat_id_and_data
               (VTuple [VInt (chat_id chat); VData data]) self,
             application)
        | None => (self, application)
        end in
      match user with
      | Some user =>
          let '(data, application) := user_data_getitem (user_id user) application in
          (set_slot slot_user_id_and_data
             (VTuple [VInt (user_id user); VData data]) self,
           application)
      | None => (self, application)
      end
  | _ => (self, application)
  end.

Definition optional {A : Type} (inj : A -> value) (o : option A) : value :=
  match o with
  | Some a => inj a
  | None => VNone
  end.

Definition from_error (update : update_arg) (err : exn) (application : Application)
    (job : option Job) (coroutine : option nat)
  : CallbackContext * Application :=
  let '(self, application) := from_update update application in
  let self := set_slot slot_error (VError err) self in
  let self := set_slot slot_coroutine (optional VCoroutine coroutine) self in
  let self := set_slot slot_job (optional VJob job) self in
  (self, application).

Definition from_job (job : Job) (application : Application)
  : CallbackContext * Application :=
  let self := __init__ in
  let self := set_slot slot_job (VJob job) self in
  let '(self, application) :=
    match job_chat_id job with
    | Some id =>
        if truthy (VInt id)
        then
          let '(data, application) := chat_data_getitem id application in
          (set_slot slot_chat_id_and_data (VTuple [VInt id; VData data]) self,
           application)
        else (self, application)
    | None => (self, application)
    end in
  match job_user_id job with
  | Some id =>
      if truthy (VInt id)
      then
        let '(data, application) := user_data_getitem id application in
        (set_slot slot_user_id_and_data (VTuple [VInt id; VData data]) self,
         application)
      else (self, application)
  | None => (self, application)
  end.

(** [update]: the items of [data] in their order, each through [setattr];
    the first exception ends the loop with the earlier items applied. *)
Fixpoint update (data : list (string * value)) (self : CallbackContext)
  : outcome unit * CallbackContext :=
  match data with
  | [] => (Return tt, self)
  | (key, v) :: rest =>
      match setattr self key v with
      | (Return _, self) => update rest self
      | (Raise e, self) => (Raise e, self)
      end
  end.

(** ** Predicates used in the statements *)

Definition id_and_data (id : Z) (h : handle) : value := VTuple [VInt id; VData h].

(** A job's id counts as given when it is true as a Python object. *)
Definition given_id (o : option Z) : option Z :=
  match o with
  | Some id => if truthy (VInt id) then Some id else None
  | None => None
  end.

(** The id-and-data slot has its declared type: None or an (id, data) pair. *)
Definition optional_id_and_data (v : value) : bool :=
  match v with
  | VNone => true
  | VTuple [VInt _; VData _] => true
  | _ => false
  end.

(** The persistence category is switched on: a backend is attached and
    its flag is set. *)
Definition persists (category : PersistenceInput -> bool) (app : Application) : bool :=
  match app_persistence app with
  | Some persistence => category persistence
  | None => false
  end.

(** Names that [setattr] stores: a slot, or a name unknown to the class. *)
Definition assignable (name : string) : bool :=
  match classify name with
  | KSlot _ | KDynamic => true
  | _ => false
  end.

Definition all_assignable (data : list (string * value)) : Prop :=
  Forall (fun item => assignable (fst item) = true) data.

(** ** Concrete inputs used by the examples below *)

Definition empty_store : DataStore := {| entries := ∅; created := 0 |}.

Definition example_cache : CallbackDataCache :=
  {| query_index := <["query-1" := "keyboard-1"]> ∅;
     data_index := <["keyboard-1" := VStr "payload"]> ∅ |}.

Definition example_persistence : PersistenceInput :=
  {| store_bot_data := true; store_chat_data := true; store_user_data := false |}.

Definition example_application : Application :=
  {| app_bot := ExtBot true example_cache;
     app_chat_data := empty_store;
     app_user_data := empty_store;
     app_persistence := Some example_persistence |}.

Definition example_update : Update :=
  {| effective_chat := Some {| chat_id := 5 |};
     effective_user := Some {| user_id := 7 |} |}.

Definition plain_application : Application := with_bot example_application PlainBot.

Definition disabled_application : Application :=
  with_bot example_application (ExtBot false example_cache).

Definition example_job : Job :=
  {| job_chat_id := Some 5%Z; job_user_id := Some 7%Z |}.

Definition example_error : exn := Exn (OtherError "ValueError") (Some "boom").

Definition stocked_application : Application :=
  snd (from_update (AnUpdate example_update) example_application).

(** ** Properties *)

(** *** Attribute names *)

Lemma classify_property (p : property) : classify (property_name p) = KProperty p.
Proof. destruct p; reflexivity. Qed.

Lemma classify_slot (s : slot) : classify (slot_name s) = KSlot s.
Proof. destruct s; reflexivity. Qed.

Lemma find_name_sound {A : Type} (name_of : A -> string) (all : list A)
    (name : string) (a : A) :
  find (fun x => String.eqb (name_of x) name) all = Some a -> name_of a = name.
Proof.
  intros Hfind. apply find_some in Hfind as [_ Heq].
  now apply String.eqb_eq in Heq.
Qed.

Lemma classify_KSlot_inv (name : string) (s : slot) :
  classify name = KSlot s -> name = slot_name s.
Proof.
  unfold classify.
  destruct (find _ all_properties) as [p|]; [discriminate|].
  destruct (find _ all_slots) as [s'|] eqn:Hslot.
  - intros [= <-]. symmetry. exact (find_name_sound slot_name all_slots name s' Hslot).
  - repeat case_match; discriminate.
Qed.

Lemma classify_KProperty_inv (name : string) (p : property) :
  classify name = KProperty p -> name = property_name p.
Proof.
  unfold classify.
  destruct (find _ all_properties) as [p'|] eqn:Hprop.
  - intros [= <-]. symmetry.
    exact (find_name_sound property_name all_properties name p' Hprop).
  - repeat case_match; discriminate.
Qed.

(** *** Slots *)

Lemma get_set_slot_eq (s : slot) (v : value) (self : CallbackContext) :
  get_slot s (set_slot s v self) = v.
Proof. destruct s; reflexivity. Qed.

Lemma get_set_slot_ne (s s' : slot) (v : value) (self : CallbackContext) :
  s <> s' -> get_slot s' (set_slot s v self) = get_slot s' self.
Proof. destruct s, s'; intros Hne; try reflexivity; now contradiction Hne. Qed.

Lemma get_slot_set_dict (s : slot) (d : gmap string value) (self : CallbackContext) :
  get_slot s (set_dict d self) = get_slot s self.
Proof. destruct s; reflexivity. Qed.

(** *** The stores *)

Lemma store_getitem_stable (mk : nat -> handle) (id : Z) (store : DataStore) :
  entries (snd (store_getitem mk id store)) !! id
  = Some (fst (store_getitem mk id store)).
Proof.
  unfold store_getitem. destruct (entries store !! id) as [h|] eqn:Hid; simpl.
  - exact Hid.
  - apply lookup_insert_eq.
Qed.

Lemma store_getitem_existing (mk : nat -> handle) (id : Z) (store : DataStore)
    (h : handle) :
  entries store !! id = Some h -> store_getitem mk id store = (h, store).
Proof. intros Hid. unfold store_getitem. now rewrite Hid. Qed.

Lemma chat_data_getitem_fst (id : Z) (app : Application) :
  fst (chat_data_getitem id app) = fst (store_getitem ChatData id (app_chat_data app)).
Proof. unfold chat_data_getitem. now destruct store_getitem. Qed.

Lemma chat_data_getitem_snd (id : Z) (app : Application) :
  snd (chat_data_getitem id app)
  = with_chat_data app (snd (store_getitem ChatData id (app_chat_data app))).
Proof. unfold chat_data_getitem. now destruct store_getitem. Qed.

Lemma user_data_getitem_fst (id : Z) (app : Application) :
  fst (user_data_getitem id app) = fst (store_getitem UserData id (app_user_data app)).
Proof. unfold user_data_getitem. now destruct store_getitem. Qed.

Lemma user_data_getitem_snd (id : Z) (app : Application) :
  snd (user_data_getitem id app)
  = with_user_data app (snd (store_getitem UserData id (app_user_data app))).
Proof. unfold user_data_getitem. now destruct store_getitem. Qed.

(** *** What the constructors leave in the two id-and-data slots *)

Ltac split_lookups :=
  repeat match goal with
         | |- context [(?n =? 0)%Z] => destruct (n =? 0)%Z; simpl
         end;
  repeat match goal with
         | |- context [store_getitem ?mk ?id ?store] =>
             destruct (store_getitem mk id store) as [? ?]; simpl
         end.

Lemma from_update_chat_slot (u : Update) (app : Application) :
  _chat_id_and_data (fst (from_update (AnUpdate u) app))
  = match effective_chat u with
    | Some chat =>
        id_and_data (chat_id chat) (fst (chat_data_getitem (chat_id chat) app))
    | None => VNone
    end.
Proof.
  unfold from_update, chat_data_getitem, user_data_getitem.
  destruct (effective_chat u) as [chat|], (effective_user u) as [user|];
    simpl; split_lookups; reflexivity.
Qed.

Lemma from_update_user_slot (u : Update) (app : Application) :
  _user_id_and_data (fst (from_update (AnUpdate u) app))
  = match effective_user u with
    | Some user =>
        id_and_data (user_id user) (fst (user_data_getitem (user_id user) app))
    | None => VNone
    end.
Proof.
  unfold from_update, chat_data_getitem, user_data_getitem.
  destruct (effective_chat u) as [chat|], (effective_user u) as [user|];
    simpl; split_lookups; reflexivity.
Qed.

Lemma from_update_chat_store (u : Update) (app : Application) :
  app_chat_data (snd (from_update (AnUpdate u) app))
  = match effective_chat u with
    | Some chat => snd (store_getitem ChatData (chat_id chat) (app_chat_data app))
    | None => app_chat_data app
    end.
Proof.
  unfold from_update, chat_data_getitem, user_data_getitem.
  destruct (effective_chat u) as [chat|], (effective_user u) as [user|];
    simpl; split_lookups; reflexivity.
Qed.

Lemma from_update_user_store (u : Update) (app : Application) :
  app_user_data (snd (from_update (AnUpdate u) app))
  = match effective_user u with
    | Some user => snd (store_getitem UserData (user_id user) (app_user_data app))
    | None => app_user_data app
    end.
Proof.
  unfold from_update, chat_data_getitem, user_data_getitem.
  destruct (effective_chat u) as [chat|], (effective_user u) as [user|];
    simpl; split_lookups; reflexivity.
Qed.

Lemma from_update_application (update : update_arg) (app : Application) :
  _application (fst (from_update update app)) = VApplication.
Proof.
  unfold from_update, chat_data_getitem, user_data_getitem.
  destruct update as [| v | u]; try reflexivity.
  destruct (effective_chat u) as [chat|], (effective_user u) as [user|];
    simpl; split_lookups; reflexivity.
Qed.

Lemma from_job_chat_slot (j : Job) (app : Application) :
  _chat_id_and_data (fst (from_job j app))
  = match given_id (job_chat_id j) with
    | Some id => id_and_data id (fst (chat_data_getitem id app))
    | None => VNone
    end.
Proof.
  unfold from_job, given_id, chat_data_getitem, user_data_getitem.
  destruct (job_chat_id j) as [c|], (job_user_id j) as [w|];
    simpl; split_lookups; reflexivity.
Qed.

Lemma from_job_user_slot (j : Job) (app : Application) :
  _user_id_and_data (fst (from_job j app))
  = match given_id (job_user_id j) with
    | Some id => id_and_data id (fst (user_data_getitem id app))
    | None => VNone
    end.
Proof.
  unfold from_job, given_id, chat_data_getitem, user_data_getitem.
  destruct (job_chat_id j) as [c|], (job_user_id j) as [w|];
    simpl; split_lookups; reflexivity.
Qed.

Lemma from_job_chat_store (j : Job) (app : Application) :
  app_chat_data (snd (from_job j app))
  = match given_id (job_chat_id j) with
    | Some id => snd (store_getitem ChatData id (app_chat_data app))
    | None => app_chat_data app
    end.
Proof.
  unfold from_job, given_id, chat_data_getitem, user_data_getitem.
  destruct (job_chat_id j) as [c|], (job_user_id j) as [w|];
    simpl; split_lookups; reflexivity.
Qed.

Lemma from_job_user_store (j : Job) (app : Application) :
  app_user_data (snd (from_job j app))
  = match given_id (job_user_id j) with
    | Some id => snd (store_getitem UserData id (app_user_data app))
    | None => app_user_data app
    end.
Proof.
  unfold from_job, given_id, chat_data_getitem, user_data_getitem.
  destruct (job_chat_id j) as [c|], (job_user_id j) as [w|];
    simpl; split_lookups; reflexivity.
Qed.

Lemma given_id_nonzero (id : Z) : id <> 0%Z -> given_id (Some id) = Some id.
Proof.
  intros Hid. unfold given_id, truthy.
  destruct (Z.eqb_spec id 0) as [Heq | _]; [contradiction | reflexivity].
Qed.

Lemma from_update_unset (update : update_arg) (app : Application) :
  let self := fst (from_update update app) in
  args self = VNone /\ matches self = VNone /\ error self = VNone
  /\ job self = VNone /\ coroutine self = VNone /\ __dict__ self = ∅.
Proof.
  unfold from_update, chat_data_getitem, user_data_getitem.
  destruct update as [| v | u]; simpl; [now repeat split.. |].
  destruct (effective_chat u) as [chat|], (effective_user u) as [user|];
    simpl; split_lookups; now repeat split.
Qed.

(** *** Contexts as the constructors build them *)

Lemma optional_id_and_data_cases (v : value) :
  optional_id_and_data v = true ->
  v = VNone \/ exists id h, v = id_and_data id h.
Proof.
  destruct v as [| | | | | items | | | | | | |]; try discriminate; [now left |].
  destruct items as [| [| | n | | | | | | | | | |] [| [| | | | | | | h | | | | |] [|]]];
    try discriminate.
  intros _. right. now exists n, h.
Qed.

Lemma from_update_well_typed (update : update_arg) (app : Application) :
  let self := fst (from_update update app) in
  application self = VApplication
  /\ optional_id_and_data (_chat_id_and_data self) = true
  /\ optional_id_and_data (_user_id_and_data self) = true.
Proof.
  simpl. split; [apply from_update_application |].
  destruct update as [| v | u]; [now split.. |].
  rewrite from_update_chat_slot, from_update_user_slot.
  now destruct (effective_chat u), (effective_user u).
Qed.

Lemma from_job_well_typed (j : Job) (app : Application) :
  let self := fst (from_job j app) in
  application self = VApplication
  /\ optional_id_and_data (_chat_id_and_data self) = true
  /\ optional_id_and_data (_user_id_and_data self) = true.
Proof.
  simpl. split.
  - unfold from_job, chat_data_getitem, user_data_getitem.
    destruct (job_chat_id j) as [c|], (job_user_id j) as [w|];
      simpl; split_lookups; reflexivity.
  - rewrite from_job_chat_slot, from_job_user_slot.
    now destruct (given_id (job_chat_id j)), (given_id (job_user_id j)).
Qed.

(** *** Attribute assignment and [update] *)

Lemma setattr_assignable (self : CallbackContext) (key : string) (v : value) :
  assignable key = true ->
  fst (setattr self key v) = Return tt
  /\ stored (snd (setattr self key v)) key = Some v
  /\ (forall name, name <> key ->
        stored (snd (setattr self key v)) name = stored self name).
Proof.
  unfold assignable, setattr, stored.
  destruct (classify key) as [p | s | | |] eqn:Hkey; try discriminate; intros _; simpl.
  - rewrite get_set_slot_eq. split; [reflexivity |]. split; [reflexivity |].
    intros name Hname.
    destruct (classify name) as [p' | s' | | |] eqn:Hclass; try reflexivity.
    rewrite get_set_slot_ne; [reflexivity |].
    intros ->. apply Hname.
    now rewrite (classify_KSlot_inv _ _ Hkey), (classify_KSlot_inv _ _ Hclass).
  - split; [reflexivity |]. split; [apply lookup_insert_eq |].
    intros name Hname.
    destruct (classify name) as [p' | s' | | |] eqn:Hclass; simpl;
      first [now rewrite get_slot_set_dict | apply lookup_insert_ne; congruence].
Qed.

Lemma property_set_raises (p : property) (self : CallbackContext) (v : value) :
  raises (property_set p self v) AttributeError.
Proof. destruct p; eexists; reflexivity. Qed.

Lemma update_cons_assignable (key : string) (v : value)
    (rest : list (string * value)) (self : CallbackContext) :
  assignable key = true ->
  update ((key, v) :: rest) self = update rest (snd (setattr self key v)).
Proof.
  intros Hkey. destruct (setattr_assignable self key v Hkey) as (Hok & _).
  simpl. destruct (setattr self key v) as [r self']. simpl in Hok.
  now rewrite Hok.
Qed.

Lemma update_app (before rest : list (string * value)) (self : CallbackContext) :
  all_assignable before ->
  update (before ++ rest) self = update rest (snd (update before self)).
Proof.
  intros Hall. revert self.
  induction Hall as [| [key v] before Hkey _ IH]; intros self; [reflexivity |].
  rewrite <- app_comm_cons, !update_cons_assignable by exact Hkey.
  apply IH.
Qed.

Lemma update_assignable (data : list (string * value)) (self : CallbackContext) :
  all_assignable data ->
  List.NoDup (map fst data) ->
  fst (update data self) = Return tt
  /\ (forall key v, In (key, v) data ->
        stored (snd (update data self)) key = Some v)
  /\ (forall name, ~ In name (map fst data) ->
        stored (snd (update data self)) name = stored self name).
Proof.
  intros Hall. revert self.
  induction Hall as [| [key v] rest Hkey _ IH]; intros self Hkeys.
  - now repeat split.
  - simpl in Hkey, Hkeys. apply NoDup_cons_iff in Hkeys as [Hfresh Hkeys].
    rewrite update_cons_assignable by exact Hkey.
    destruct (setattr_assignable self key v Hkey) as (_ & Hset & Hother).
    destruct (IH (snd (setattr self key v)) Hkeys) as (Hok & Happlied & Hrest).
    split; [exact Hok |]. split.
    + intros key' v' [[= <- <-] | Hin].
      * rewrite Hrest by exact Hfresh. exact Hset.
      * now apply Happlied.
    + intros name Hname. simpl in Hname.
      rewrite Hrest by tauto. apply Hother. intros ->. tauto.
Qed.

(** ** The claims *)

(** C1. Assigning any value to [bot_data], [chat_data] or [user_data] of
    any context raises [AttributeError] (the spec's InvalidOperation) with
    the message that points to the wiki page, and leaves the context as it
    was. *)
Theorem data_accessor_assignment_raises (self : CallbackContext) (v : value) :
  setattr self "bot_data" v
  = (Raise (Exn AttributeError
              (Some ("You can not assign a new value to bot_data, see "
                     ++ _STORING_DATA_WIKI))), self)
  /\ setattr self "chat_data" v
     = (Raise (Exn AttributeError
                 (Some ("You can not assign a new value to chat_data, see "
                        ++ _STORING_DATA_WIKI))), self)
  /\ setattr self "user_data" v
     = (Raise (Exn AttributeError
                 (Some ("You can not assign a new value to user_data, see "
                        ++ _STORING_DATA_WIKI))), self)
  /\ raises (fst (setattr self "bot_data" v)) AttributeError
  /\ raises (fst (setattr self "chat_data" v)) AttributeError
  /\ raises (fst (setattr self "user_data" v)) AttributeError.
Proof.
  repeat split; try reflexivity; eexists; reflexivity.
Qed.

(** C2. On a context that still refers to its Application,
    [drop_callback_data] raises [RuntimeError] (the spec's CapabilityError)
    when the bot is a plain [telegram.Bot], raises [RuntimeError] too when
    it is an [ExtBot] with arbitrary callback data switched off, and, with
    the capability on, raises [KeyError] (NotFoundError) when the query's
    token is not in the cache's query index; in all three the Application
    is left as it was. With the token indexed it returns None and the
    payload under the indexed key is gone from the data index. *)
Theorem drop_callback_data_outcomes (self : CallbackContext)
    (callback_query : CallbackQuery) (app : Application) :
  application self = VApplication ->
  (app_bot app = PlainBot ->
     raises (fst (drop_callback_data self callback_query app)) RuntimeError
     /\ snd (drop_callback_data self callback_query app) = app)
  /\ (forall cache, app_bot app = ExtBot false cache ->
        raises (fst (drop_callback_data self callback_query app)) RuntimeError
        /\ snd (drop_callback_data self callback_query app) = app)
  /\ (forall cache, app_bot app = ExtBot true cache ->
        query_index cache !! query_id callback_query = None ->
        raises (fst (drop_callback_data self callback_query app)) KeyError
        /\ snd (drop_callback_data self callback_query app) = app)
  /\ (forall cache key, app_bot app = ExtBot true cache ->
        query_index cache !! query_id callback_query = Some key ->
        fst (drop_callback_data self callback_query app) = Return tt
        /\ exists cache',
            snd (drop_callback_data self callback_query app)
            = with_bot app (ExtBot true cache')
            /\ data_index cache' = delete key (data_index cache)
            /\ data_index cache' !! key = None
            /\ query_index cache' = query_index cache).
Proof.
  intros Happ. unfold drop_callback_data, bot, on_application. rewrite Happ.
  destruct app as [b chats users pers]; simpl.
  split; [| split; [| split]].
  - intros ->. split; [eexists |]; reflexivity.
  - intros cache ->. split; [eexists |]; reflexivity.
  - intros cache -> Hmiss. unfold drop_data. rewrite Hmiss. simpl.
    split; [eexists |]; reflexivity.
  - intros cache key -> Hhit. unfold drop_data. rewrite Hhit. simpl.
    split; [reflexivity |]. eexists. split; [reflexivity |]. simpl.
    split; [reflexivity |]. split; [apply lookup_delete_eq | reflexivity].
Qed.

Lemma drop_callback_data_outcomes_witness :
  raises (fst (drop_callback_data __init__ {| query_id := "query-1" |}
                 plain_application)) RuntimeError
  /\ raises (fst (drop_callback_data __init__ {| query_id := "query-1" |}
                    disabled_application)) RuntimeError
  /\ raises (fst (drop_callback_data __init__ {| query_id := "query-2" |}
                    example_application)) KeyError
  /\ fst (drop_callback_data __init__ {| query_id := "query-1" |}
            example_application) = Return tt.
Proof.
  split; [| split; [| split]].
  - destruct (drop_callback_data_outcomes __init__ {| query_id := "query-1" |}
                plain_application eq_refl) as (Hplain & _).
    apply Hplain. reflexivity.
  - destruct (drop_callback_data_outcomes __init__ {| query_id := "query-1" |}
                disabled_application eq_refl) as (_ & Hoff & _).
    apply (Hoff example_cache). reflexivity.
  - destruct (drop_callback_data_outcomes __init__ {| query_id := "query-2" |}
                example_application eq_refl) as (_ & _ & Hmiss & _).
    apply (Hmiss example_cache); reflexivity.
  - destruct (drop_callback_data_outcomes __init__ {| query_id := "query-1" |}
                example_application eq_refl) as (_ & _ & _ & Hhit).
    apply (Hhit example_cache "keyboard-1"); reflexivity.
Defined.

(** The exception handler of [match] names [IndexError] and [TypeError]
    only: a mapping put into [matches], which is outside its declared type,
    lets the [KeyError] of the subscript through. *)
Remark match_of_mapping (self : CallbackContext) :
  match_ (set_slot slot_matches (VDict []) self) = Raise (Exn KeyError None).
Proof. reflexivity. Qed.

(** C3. Reading [match] gives None when [matches] is None, None when it is
    the empty list, and the first element when it is a non-empty list; on
    every context whose [matches] is None or a list it returns. *)
Theorem match_first_or_absent (self : CallbackContext) :
  (matches self = VNone -> match_ self = Return VNone)
  /\ (matches self = VList [] -> match_ self = Return VNone)
  /\ (forall m rest, matches self = VList (m :: rest) -> match_ self = Return m)
  /\ (matches self = VNone \/ (exists items, matches self = VList items) ->
      returns (match_ self)).
Proof.
  unfold match_. repeat split.
  - intros ->. reflexivity.
  - intros ->. reflexivity.
  - intros m rest ->. reflexivity.
  - intros [-> | [items ->]].
    + now exists VNone.
    + destruct items as [| m rest]; [now exists VNone | now exists m].
Qed.

Lemma match_first_or_absent_witness :
  match_ __init__ = Return VNone
  /\ match_ (set_slot slot_matches (VList []) __init__) = Return VNone
  /\ match_ (set_slot slot_matches (VList [VInt 1; VInt 2]) __init__)
     = Return (VInt 1).
Proof.
  split; [| split].
  - destruct (match_first_or_absent __init__) as (Hnone & _).
    apply Hnone. reflexivity.
  - destruct (match_first_or_absent (set_slot slot_matches (VList []) __init__))
      as (_ & Hempty & _).
    apply Hempty. reflexivity.
  - destruct (match_first_or_absent
                (set_slot slot_matches (VList [VInt 1; VInt 2]) __init__))
      as (_ & _ & Hfirst & _).
    apply (Hfirst (VInt 1) [VInt 2]). reflexivity.
Defined.

(** C4. For an update with an effective chat, [chat_data] of the context
    built by [from_update] is the handle that looking the chat id up in the
    Application's chat store gives at construction time, and the store
    afterwards holds that handle under the id; likewise for the effective
    user and [user_data]. Without an effective chat [chat_data] is None. *)
Theorem from_update_data_handles (u : Update) (app : Application) :
  (forall chat, effective_chat u = Some chat ->
     chat_data (fst (from_update (AnUpdate u) app))
     = Return (VData (fst (chat_data_getitem (chat_id chat) app)))
     /\ entries (app_chat_data (snd (from_update (AnUpdate u) app))) !! chat_id chat
        = Some (fst (chat_data_getitem (chat_id chat) app)))
  /\ (forall user, effective_user u = Some user ->
        user_data (fst (from_update (AnUpdate u) app))
        = Return (VData (fst (user_data_getitem (user_id user) app)))
        /\ entries (app_user_data (snd (from_update (AnUpdate u) app))) !! user_id user
           = Some (fst (user_data_getitem (user_id user) app)))
  /\ (effective_chat u = None ->
      chat_data (fst (from_update (AnUpdate u) app)) = Return VNone).
Proof.
  split; [| split].
  - intros chat Hchat. split.
    + unfold chat_data. rewrite from_update_chat_slot, Hchat. reflexivity.
    + rewrite from_update_chat_store, Hchat, chat_data_getitem_fst.
      apply store_getitem_stable.
  - intros user Huser. split.
    + unfold user_data. rewrite from_update_user_slot, Huser. reflexivity.
    + rewrite from_update_user_store, Huser, user_data_getitem_fst.
      apply store_getitem_stable.
  - intros Hchat. unfold chat_data. rewrite from_update_chat_slot, Hchat.
    reflexivity.
Qed.

Lemma from_update_data_handles_witness :
  chat_data (fst (from_update (AnUpdate example_update) example_application))
  = Return (VData (ChatData 0))
  /\ user_data (fst (from_update (AnUpdate example_update) example_application))
     = Return (VData (UserData 0))
  /\ chat_data
       (fst (from_update
               (AnUpdate {| effective_chat := None; effective_user := None |})
               example_application))
     = Return VNone.
Proof.
  split; [| split].
  - destruct (from_update_data_handles example_update example_application)
      as (Hchat & _).
    destruct (Hchat {| chat_id := 5 |}) as (Hget & _); [reflexivity |].
    exact Hget.
  - destruct (from_update_data_handles example_update example_application)
      as (_ & Huser & _).
    destruct (Huser {| user_id := 7 |}) as (Hget & _); [reflexivity |].
    exact Hget.
  - destruct (from_update_data_handles
                {| effective_chat := None; effective_user := None |}
                example_application) as (_ & _ & Hnone).
    apply Hnone. reflexivity.
Defined.

(** C5. On a context that refers to its Application and whose two
    id-and-data slots are as a constructor leaves them, [refresh_data]
    raises nothing and awaits, in this order and each at most once: the
    bot-data hook with the bot data iff a backend is attached and
    persists bot data; the chat-data hook with the resolved chat id and
    handle iff a backend is attached, persists chat data and a chat was
    resolved; the user-data hook likewise. *)
Theorem refresh_data_hooks (self : CallbackContext) (app : Application) :
  application self = VApplication ->
  optional_id_and_data (_chat_id_and_data self) = true ->
  optional_id_and_data (_user_id_and_data self) = true ->
  snd (refresh_data self app) = Return tt
  /\ fst (refresh_data self app)
     = ((if persists store_bot_data app
         then [refresh_bot_data (VData BotData)] else [])
        ++ (match _chat_id_and_data self with
            | VTuple [id; data] =>
                if persists store_chat_data app
                then [refresh_chat_data id data] else []
            | _ => []
            end)
        ++ (match _user_id_and_data self with
            | VTuple [id; data] =>
                if persists store_user_data app
                then [refresh_user_data id data] else []
            | _ => []
            end))%list
  /\ (forall data, In (refresh_bot_data data) (fst (refresh_data self app))
                   <-> persists store_bot_data app = true /\ data = VData BotData)
  /\ (forall id data, In (refresh_chat_data id data) (fst (refresh_data self app))
                      <-> persists store_chat_data app = true
                          /\ _chat_id_and_data self = VTuple [id; data])
  /\ (forall id data, In (refresh_user_data id data) (fst (refresh_data self app))
                      <-> persists store_user_data app = true
                          /\ _user_id_and_data self = VTuple [id; data]).
Proof.
  intros Happ Hchat Huser.
  apply optional_id_and_data_cases in Hchat, Huser.
  assert (Htrace :
            refresh_data self app
            = (((if persists store_bot_data app
                 then [refresh_bot_data (VData BotData)] else [])
                ++ (match _chat_id_and_data self with
                    | VTuple [id; data] =>
                        if persists store_chat_data app
                        then [refresh_chat_data id data] else []
                    | _ => []
                    end)
                ++ (match _user_id_and_data self with
                    | VTuple [id; data] =>
                        if persists store_user_data app
                        then [refresh_user_data id data] else []
                    | _ => []
                    end))%list, Return tt)).
  { unfold refresh_data, bot_data, on_application, persists. rewrite Happ.
    destruct (app_persistence app) as [[b c u] |]; simpl.
    - destruct Hchat as [-> | (cid & ch & ->)], Huser as [-> | (uid & uh & ->)];
        destruct b, c, u; reflexivity.
    - destruct Hchat as [-> | (cid & ch & ->)], Huser as [-> | (uid & uh & ->)];
        reflexivity. }
  rewrite Htrace. clear Htrace. simpl.
  split; [reflexivity |]. split; [reflexivity |].
  unfold id_and_data in *.
  destruct Hchat as [-> | (cid & ch & ->)], Huser as [-> | (uid & uh & ->)];
    destruct (persists store_bot_data app), (persists store_chat_data app),
      (persists store_user_data app); simpl;
    (split; [| split]); intros; (split; [intros Hin | intros [Hon Heq]]);
    repeat match goal with
           | H : _ \/ _ |- _ => destruct H
           | H : False |- _ => destruct H
           | H : refresh_bot_data _ = refresh_bot_data _ |- _ =>
               injection H as <-
           | H : refresh_chat_data _ _ = refresh_chat_data _ _ |- _ =>
               injection H as <- <-
           | H : refresh_user_data _ _ = refresh_user_data _ _ |- _ =>
               injection H as <- <-
           | H : VTuple _ = VTuple _ |- _ => injection H as <- <-
           end;
    try discriminate; subst; auto 6.
Qed.

Lemma refresh_data_hooks_witness :
  refresh_data
    (fst (from_update (AnUpdate example_update) example_application))
    (snd (from_update (AnUpdate example_update) example_application))
  = ([refresh_bot_data (VData BotData);
      refresh_chat_data (VInt 5) (VData (ChatData 0))],
     Return tt).
Proof.
  destruct (refresh_data_hooks
              (fst (from_update (AnUpdate example_update) example_application))
              (snd (from_update (AnUpdate example_update) example_application))
              eq_refl eq_refl eq_refl) as (Hreturn & Hcalls & _).
  rewrite (surjective_pairing (refresh_data _ _)), Hreturn, Hcalls.
  reflexivity.
Defined.

(** C6, as amended. A job whose chat id is given and not 0, and whose user
    id is None, yields a context whose [chat_data] is the handle the
    Application's chat store gives for that id (the store holds it
    afterwards) and whose [user_data] is None. *)
Theorem from_job_chat_only (j : Job) (app : Application) (id : Z) :
  job_chat_id j = Some id ->
  id <> 0%Z ->
  job_user_id j = None ->
  chat_data (fst (from_job j app)) = Return (VData (fst (chat_data_getitem id app)))
  /\ entries (app_chat_data (snd (from_job j app))) !! id
     = Some (fst (chat_data_getitem id app))
  /\ user_data (fst (from_job j app)) = Return VNone.
Proof.
  intros Hchat Hid Huser. split; [| split].
  - unfold chat_data.
    rewrite from_job_chat_slot, Hchat, (given_id_nonzero id Hid). reflexivity.
  - rewrite from_job_chat_store, Hchat, (given_id_nonzero id Hid),
      chat_data_getitem_fst.
    apply store_getitem_stable.
  - unfold user_data. rewrite from_job_user_slot, Huser. reflexivity.
Qed.

Lemma from_job_chat_only_witness :
  chat_data
    (fst (from_job {| job_chat_id := Some 4%Z; job_user_id := None |}
            example_application))
  = Return (VData (ChatData 0))
  /\ user_data
       (fst (from_job {| job_chat_id := Some 4%Z; job_user_id := None |}
               example_application))
     = Return VNone.
Proof.
  destruct (from_job_chat_only
              {| job_chat_id := Some 4%Z; job_user_id := None |}
              example_application 4%Z) as (Hchat & _ & Huser);
    [reflexivity | lia | reflexivity |].
  split; [exact Hchat | exact Huser].
Defined.

(** C6 as the spec words it fails for the chat id 0, which is not None:
    [chat_data] is None and not the store's handle for 0. *)
Lemma from_job_chat_only_counterexample :
  let j := {| job_chat_id := Some 0%Z; job_user_id := None |} in
  job_chat_id j <> None
  /\ job_user_id j = None
  /\ chat_data (fst (from_job j example_application)) = Return VNone
  /\ chat_data (fst (from_job j example_application))
     <> Return (VData (fst (chat_data_getitem 0 example_application))).
Proof.
  repeat split; discriminate.
Qed.

(** C7. [from_error] returns the context of [from_update] on the same
    update (None included) with the error, the job and the coroutine
    written over it: the Application ends in the same state, every other
    slot and the instance dict are those of [from_update], and a job or
    coroutine that is not passed stays None as [from_update] left it. *)
Theorem from_error_extends_from_update (update : update_arg) (err : exn)
    (app : Application) (j : option Job) (co : option nat) :
  let base := fst (from_update update app) in
  let self := fst (from_error update err app j co) in
  snd (from_error update err app j co) = snd (from_update update app)
  /\ self = set_slot slot_job (optional VJob j)
              (set_slot slot_coroutine (optional VCoroutine co)
                 (set_slot slot_error (VError err) base))
  /\ error self = VError err
  /\ job self = optional VJob j
  /\ coroutine self = optional VCoroutine co
  /\ _application self = _application base
  /\ _chat_id_and_data self = _chat_id_and_data base
  /\ _user_id_and_data self = _user_id_and_data base
  /\ args self = args base
  /\ matches self = matches base
  /\ __dict__ self = __dict__ base
  /\ job (fst (from_error update err app None co)) = job base
  /\ coroutine (fst (from_error update err app j None)) = coroutine base.
Proof.
  destruct (from_update_unset update app) as (_ & _ & _ & Hjob & Hco & _).
  unfold from_error.
  destruct (from_update update app) as [base app'] eqn:Hbase.
  simpl in *. rewrite Hjob, Hco. now repeat split.
Qed.

(** C8, as amended. A mapping with distinct keys none of which names a
    property of the class ([bot_data], [chat_data], [user_data],
    [application], [bot], [job_queue], [update_queue], [match]) or
    [__dict__] or [__class__] is applied in full: [update] returns, every
    key then holds its value (in its slot, or as a dynamic attribute) and
    nothing else stored on the context changes.  At the first key that
    names a property [update] raises [AttributeError], with the items
    before it applied and none after it. *)
Theorem update_applies_fields (data : list (string * value)) (self : CallbackContext) :
  (all_assignable data ->
   List.NoDup (map fst data) ->
   fst (update data self) = Return tt
   /\ (forall key v, In (key, v) data ->
         stored (snd (update data self)) key = Some v)
   /\ (forall name, ~ In name (map fst data) ->
         stored (snd (update data self)) name = stored self name))
  /\ (forall before key v after p,
        data = (before ++ (key, v) :: after)%list ->
        all_assignable before ->
        classify key = KProperty p ->
        raises (fst (update data self)) AttributeError
        /\ snd (update data self) = snd (update before self)).
Proof.
  split; [apply update_assignable |].
  intros before key v after p -> Hbefore Hkey.
  rewrite update_app by exact Hbefore. simpl.
  unfold setattr. rewrite Hkey.
  destruct (property_set_raises p (snd (update before self)) v) as [msg ->].
  split; [now exists msg | reflexivity].
Qed.

Lemma update_applies_fields_witness :
  (fst (update [("args", VList [VStr "a"]); ("note", VInt 1)] __init__) = Return tt
   /\ stored (snd (update [("args", VList [VStr "a"]); ("note", VInt 1)] __init__))
        "note" = Some (VInt 1))
  /\ raises (fst (update [("note", VInt 1); ("chat_data", VDict [])] __init__))
       AttributeError.
Proof.
  split.
  - destruct (update_applies_fields
                [("args", VList [VStr "a"]); ("note", VInt 1)] __init__)
      as (Happlied & _).
    destruct Happlied as (Hok & Hstored & _).
    + repeat constructor.
    + repeat constructor; simpl; intros Hin;
        repeat destruct Hin as [Hin | Hin]; try discriminate; exact Hin.
    + split; [exact Hok |]. apply Hstored. simpl. auto.
  - destruct (update_applies_fields
                [("note", VInt 1); ("chat_data", VDict [])] __init__)
      as (_ & Hfails).
    apply (Hfails [("note", VInt 1)] "chat_data" (VDict []) [] prop_chat_data).
    + reflexivity.
    + repeat constructor.
    + reflexivity.
Defined.

(** C8 as the spec words it fails on the key [bot_data]: [update] raises,
    nothing is stored under the name, and the accessor still gives the
    Application's bot data and not the value passed. *)
Lemma update_applies_fields_counterexample :
  fst (update [("bot_data", VDict [])] __init__)
  = Raise (Exn AttributeError
             (Some ("You can not assign a new value to bot_data, see "
                    ++ _STORING_DATA_WIKI)))
  /\ stored (snd (update [("bot_data", VDict [])] __init__)) "bot_data" = None
  /\ bot_data (snd (update [("bot_data", VDict [])] __init__))
     = Return (VData BotData)
  /\ bot_data (snd (update [("bot_data", VDict [])] __init__))
     <> Return (VDict []).
Proof.
  repeat split. discriminate.
Qed.

(** C9. After [update] with the one item ["matches" : [m]], which
    succeeds on every context, [match] returns [m]. *)
Theorem update_matches_then_match (m : value) (self : CallbackContext) :
  fst (update [("matches", VList [m])] self) = Return tt
  /\ match_ (snd (update [("matches", VList [m])] self)) = Return m.
Proof. split; reflexivity. Qed.

(** C10. A job whose chat id is the integer 0 yields a context without
    chat data, exactly as a job without chat id does, and the chat store is
    not touched; the same holds for the user id and the user store. *)
Theorem from_job_zero_id_is_absent (j : Job) (app : Application) :
  (job_chat_id j = Some 0%Z ->
     chat_data (fst (from_job j app)) = Return VNone
     /\ _chat_id_and_data (fst (from_job j app))
        = _chat_id_and_data
            (fst (from_job {| job_chat_id := None; job_user_id := job_user_id j |} app))
     /\ app_chat_data (snd (from_job j app)) = app_chat_data app)
  /\ (job_user_id j = Some 0%Z ->
        user_data (fst (from_job j app)) = Return VNone
        /\ _user_id_and_data (fst (from_job j app))
           = _user_id_and_data
               (fst (from_job {| job_chat_id := job_chat_id j; job_user_id := None |} app))
        /\ app_user_data (snd (from_job j app)) = app_user_data app).
Proof.
  split.
  - intros Hchat. unfold chat_data.
    rewrite !from_job_chat_slot, from_job_chat_store, Hchat. now simpl.
  - intros Huser. unfold user_data.
    rewrite !from_job_user_slot, from_job_user_store, Huser. now simpl.
Qed.

Lemma from_job_zero_id_is_absent_witness :
  chat_data
    (fst (from_job {| job_chat_id := Some 0%Z; job_user_id := Some 0%Z |}
            example_application))
  = Return VNone
  /\ user_data
       (fst (from_job {| job_chat_id := Some 0%Z; job_user_id := Some 0%Z |}
               example_application))
     = Return VNone.
Proof.
  destruct (from_job_zero_id_is_absent
              {| job_chat_id := Some 0%Z; job_user_id := Some 0%Z |}
              example_application) as (Hchat & Huser).
  split.
  - apply Hchat. reflexivity.
  - apply Huser. reflexivity.
Defined.

(** ** Further properties of the constructors *)

Lemma store_getitem_again (mk : nat -> handle) (id : Z) (store : DataStore) :
  store_getitem mk id (snd (store_getitem mk id store))
  = store_getitem mk id store.
Proof.
  rewrite (store_getitem_existing mk id _ _ (store_getitem_stable mk id store)).
  now destruct (store_getitem mk id store).
Qed.

Lemma store_getitem_keeps (mk : nat -> handle) (id k : Z) (store : DataStore)
    (h : handle) :
  entries store !! k = Some h ->
  entries (snd (store_getitem mk id store)) !! k = Some h.
Proof.
  intros Hk. unfold store_getitem.
  destruct (entries store !! id) as [h'|] eqn:Hid; simpl; [exact Hk |].
  rewrite lookup_insert_ne; [exact Hk |]. intros ->. congruence.
Qed.

Lemma from_update_settings (update : update_arg) (app : Application) :
  app_bot (snd (from_update update app)) = app_bot app
  /\ app_persistence (snd (from_update update app)) = app_persistence app.
Proof.
  unfold from_update, chat_data_getitem, user_data_getitem.
  destruct update as [| v | u]; [now split.. |].
  destruct (effective_chat u) as [chat|], (effective_user u) as [user|];
    simpl; split_lookups; now split.
Qed.

Lemma from_job_settings (j : Job) (app : Application) :
  app_bot (snd (from_job j app)) = app_bot app
  /\ app_persistence (snd (from_job j app)) = app_persistence app.
Proof.
  unfold from_job, chat_data_getitem, user_data_getitem.
  destruct (job_chat_id j) as [c|], (job_user_id j) as [w|];
    simpl; split_lookups; now split.
Qed.

Lemma from_job_unset (j : Job) (app : Application) :
  let self := fst (from_job j app) in
  job self = VJob j /\ args self = VNone /\ matches self = VNone
  /\ error self = VNone /\ coroutine self = VNone /\ __dict__ self = ∅.
Proof.
  unfold from_job, chat_data_getitem, user_data_getitem.
  destruct (job_chat_id j) as [c|], (job_user_id j) as [w|];
    simpl; split_lookups; now repeat split.
Qed.

Lemma from_error_fst (update : update_arg) (err : exn) (app : Application)
    (j : option Job) (co : option nat) :
  fst (from_error update err app j co)
  = set_slot slot_job (optional VJob j)
      (set_slot slot_coroutine (optional VCoroutine co)
         (set_slot slot_error (VError err) (fst (from_update update app)))).
Proof. unfold from_error. now destruct (from_update update app). Qed.

Lemma from_error_snd (update : update_arg) (err : exn) (app : Application)
    (j : option Job) (co : option nat) :
  snd (from_error update err app j co) = snd (from_update update app).
Proof. unfold from_error. now destruct (from_update update app). Qed.

(** X1. An error context built without an update ([None], as for an
    error in a job callback, or an object that is no [Update]) has no chat
    data and no user data, whatever chat and user ids the job passed
    along carries: [from_error] resolves nothing from the job. It holds
    the error and the job, and the Application is left as it was. *)
Theorem error_context_without_update (update : update_arg) (err : exn)
    (app : Application) (j : option Job) (co : option nat) :
  (update = NoUpdate \/ exists v, update = OtherObject v) ->
  chat_data (fst (from_error update err app j co)) = Return VNone
  /\ user_data (fst (from_error update err app j co)) = Return VNone
  /\ error (fst (from_error update err app j co)) = VError err
  /\ job (fst (from_error update err app j co)) = optional VJob j
  /\ snd (from_error update err app j co) = app.
Proof.
  intros [-> | [v ->]]; now repeat split.
Qed.

Lemma error_context_without_update_witness :
  chat_data
    (fst (from_error NoUpdate example_error example_application
            (Some example_job) None))
  = Return VNone
  /\ job (fst (from_error NoUpdate example_error example_application
                 (Some example_job) None))
     = VJob example_job.
Proof.
  destruct (error_context_without_update NoUpdate example_error
              example_application (Some example_job) None)
    as (Hchat & _ & _ & Hjob & _); [now left |].
  split; [exact Hchat | exact Hjob].
Defined.

(** X2. Contexts built one after the other from updates with the same
    effective chat id hold the same chat data object, and the second
    construction leaves the chat store as the first left it; likewise for
    updates with the same effective user id. *)
Theorem same_id_same_data (u1 u2 : Update) (app : Application) :
  (forall c1 c2,
     effective_chat u1 = Some c1 -> effective_chat u2 = Some c2 ->
     chat_id c1 = chat_id c2 ->
     chat_data (fst (from_update (AnUpdate u2)
                       (snd (from_update (AnUpdate u1) app))))
     = chat_data (fst (from_update (AnUpdate u1) app))
     /\ app_chat_data (snd (from_update (AnUpdate u2)
                              (snd (from_update (AnUpdate u1) app))))
        = app_chat_data (snd (from_update (AnUpdate u1) app)))
  /\ (forall w1 w2,
        effective_user u1 = Some w1 -> effective_user u2 = Some w2 ->
        user_id w1 = user_id w2 ->
        user_data (fst (from_update (AnUpdate u2)
                          (snd (from_update (AnUpdate u1) app))))
        = user_data (fst (from_update (AnUpdate u1) app))
        /\ app_user_data (snd (from_update (AnUpdate u2)
                                 (snd (from_update (AnUpdate u1) app))))
           = app_user_data (snd (from_update (AnUpdate u1) app))).
Proof.
  split.
  - intros c1 c2 H1 H2 Hid. unfold chat_data.
    rewrite !from_update_chat_slot, !from_update_chat_store, H1, H2.
    rewrite !chat_data_getitem_fst, from_update_chat_store, H1, <- Hid.
    now rewrite store_getitem_again.
  - intros w1 w2 H1 H2 Hid. unfold user_data.
    rewrite !from_update_user_slot, !from_update_user_store, H1, H2.
    rewrite !user_data_getitem_fst, from_update_user_store, H1, <- Hid.
    now rewrite store_getitem_again.
Qed.

Lemma same_id_same_data_witness :
  chat_data
    (fst (from_update
            (AnUpdate {| effective_chat := Some {| chat_id := 5 |};
                         effective_user := None |})
            (snd (from_update (AnUpdate example_update) example_application))))
  = chat_data (fst (from_update (AnUpdate example_update) example_application)).
Proof.
  destruct (same_id_same_data example_update
              {| effective_chat := Some {| chat_id := 5 |};
                 effective_user := None |} example_application)
    as (Hchat & _).
  destruct (Hchat {| chat_id := 5 |} {| chat_id := 5 |}) as (Hsame & _);
    [reflexivity .. |].
  exact Hsame.
Defined.

(** X3. A job that targets a chat (user) by a non-zero id gets the data
    object that an earlier update from that chat (user) was given: a job
    callback and the handlers of the chat work on the same object. *)
Theorem job_context_shares_update_data (u : Update) (j : Job) (app : Application) :
  (forall c id,
     effective_chat u = Some c -> job_chat_id j = Some id ->
     id <> 0%Z -> chat_id c = id ->
     chat_data (fst (from_job j (snd (from_update (AnUpdate u) app))))
     = chat_data (fst (from_update (AnUpdate u) app)))
  /\ (forall w id,
        effective_user u = Some w -> job_user_id j = Some id ->
        id <> 0%Z -> user_id w = id ->
        user_data (fst (from_job j (snd (from_update (AnUpdate u) app))))
        = user_data (fst (from_update (AnUpdate u) app))).
Proof.
  split.
  - intros c id Hc Hj Hid <-. unfold chat_data.
    rewrite from_job_chat_slot, from_update_chat_slot, Hc, Hj.
    rewrite (given_id_nonzero _ Hid).
    rewrite !chat_data_getitem_fst, from_update_chat_store, Hc.
    now rewrite store_getitem_again.
  - intros w id Hw Hj Hid <-. unfold user_data.
    rewrite from_job_user_slot, from_update_user_slot, Hw, Hj.
    rewrite (given_id_nonzero _ Hid).
    rewrite !user_data_getitem_fst, from_update_user_store, Hw.
    now rewrite store_getitem_again.
Qed.

Lemma job_context_shares_update_data_witness :
  chat_data
    (fst (from_job example_job
            (snd (from_update (AnUpdate example_update) example_application))))
  = chat_data (fst (from_update (AnUpdate example_update) example_application))
  /\ user_data
       (fst (from_job example_job
               (snd (from_update (AnUpdate example_update) example_application))))
     = user_data (fst (from_update (AnUpdate example_update) example_application)).
Proof.
  destruct (job_context_shares_update_data example_update example_job
              example_application) as (Hchat & Huser).
  split.
  - apply (Hchat {| chat_id := 5 |} 5%Z); [reflexivity | reflexivity | lia | reflexivity].
  - apply (Huser {| user_id := 7 |} 7%Z); [reflexivity | reflexivity | lia | reflexivity].
Defined.

(** X4. [from_job] resolves the two ids independently: a non-zero chat id
    gives the chat store's object whatever the user id is, a non-zero user
    id gives the user store's object whatever the chat id is, and an id of
    None gives None.  The context holds the job itself, and its arguments,
    matches, error and coroutine are None. *)
Theorem from_job_resolves_ids_independently (j : Job) (app : Application) :
  (forall id, job_chat_id j = Some id -> id <> 0%Z ->
     chat_data (fst (from_job j app))
     = Return (VData (fst (chat_data_getitem id app))))
  /\ (forall id, job_user_id j = Some id -> id <> 0%Z ->
        user_data (fst (from_job j app))
        = Return (VData (fst (user_data_getitem id app))))
  /\ (job_chat_id j = None -> chat_data (fst (from_job j app)) = Return VNone)
  /\ (job_user_id j = None -> user_data (fst (from_job j app)) = Return VNone)
  /\ job (fst (from_job j app)) = VJob j
  /\ args (fst (from_job j app)) = VNone
  /\ matches (fst (from_job j app)) = VNone
  /\ error (fst (from_job j app)) = VNone
  /\ coroutine (fst (from_job j app)) = VNone.
Proof.
  destruct (from_job_unset j app) as (Hjob & Hargs & Hmatches & Herror & Hco & _).
  repeat split; try assumption.
  - intros id Hj Hid. unfold chat_data.
    now rewrite from_job_chat_slot, Hj, (given_id_nonzero _ Hid).
  - intros id Hj Hid. unfold user_data.
    now rewrite from_job_user_slot, Hj, (given_id_nonzero _ Hid).
  - intros Hj. unfold chat_data. now rewrite from_job_chat_slot, Hj.
  - intros Hj. unfold user_data. now rewrite from_job_user_slot, Hj.
Qed.

Lemma from_job_resolves_ids_independently_witness :
  chat_data (fst (from_job example_job example_application))
  = Return (VData (ChatData 0))
  /\ user_data (fst (from_job example_job example_application))
     = Return (VData (UserData 0)).
Proof.
  destruct (from_job_resolves_ids_independently example_job example_application)
    as (Hchat & Huser & _).
  split.
  - apply (Hchat 5%Z); [reflexivity | lia].
  - apply (Huser 7%Z); [reflexivity | lia].
Defined.

Lemma from_update_keeps_entries (update : update_arg) (app : Application)
    (k : Z) (h : handle) :
  (entries (app_chat_data app) !! k = Some h ->
   entries (app_chat_data (snd (from_update update app))) !! k = Some h)
  /\ (entries (app_user_data app) !! k = Some h ->
      entries (app_user_data (snd (from_update update app))) !! k = Some h).
Proof.
  destruct update as [| v | u]; [now split.. |].
  rewrite from_update_chat_store, from_update_user_store.
  split; intros Hk.
  - destruct (effective_chat u); [now apply store_getitem_keeps | exact Hk].
  - destruct (effective_user u); [now apply store_getitem_keeps | exact Hk].
Qed.

Lemma from_job_keeps_entries (j : Job) (app : Application) (k : Z) (h : handle) :
  (entries (app_chat_data app) !! k = Some h ->
   entries (app_chat_data (snd (from_job j app))) !! k = Some h)
  /\ (entries (app_user_data app) !! k = Some h ->
      entries (app_user_data (snd (from_job j app))) !! k = Some h).
Proof.
  rewrite from_job_chat_store, from_job_user_store.
  split; intros Hk.
  - destruct (given_id (job_chat_id j)); [now apply store_getitem_keeps | exact Hk].
  - destruct (given_id (job_user_id j)); [now apply store_getitem_keeps | exact Hk].
Qed.

(** X5. Building a context never replaces or removes what the
    Application already stores: an object held for a chat id (user id)
    before [from_update], [from_error] or [from_job] is still held for it
    afterwards, and the bot and the persistence settings are untouched. *)
Theorem constructors_keep_stored_data (app : Application) (update : update_arg)
    (err : exn) (j : Job) (oj : option Job) (co : option nat)
    (k : Z) (h : handle) :
  (entries (app_chat_data app) !! k = Some h ->
   entries (app_chat_data (snd (from_update update app))) !! k = Some h
   /\ entries (app_chat_data (snd (from_error update err app oj co))) !! k = Some h
   /\ entries (app_chat_data (snd (from_job j app))) !! k = Some h)
  /\ (entries (app_user_data app) !! k = Some h ->
      entries (app_user_data (snd (from_update update app))) !! k = Some h
      /\ entries (app_user_data (snd (from_error update err app oj co))) !! k = Some h
      /\ entries (app_user_data (snd (from_job j app))) !! k = Some h)
  /\ app_bot (snd (from_update update app)) = app_bot app
  /\ app_bot (snd (from_error update err app oj co)) = app_bot app
  /\ app_bot (snd (from_job j app)) = app_bot app
  /\ app_persistence (snd (from_update update app)) = app_persistence app
  /\ app_persistence (snd (from_error update err app oj co)) = app_persistence app
  /\ app_persistence (snd (from_job j app)) = app_persistence app.
Proof.
  rewrite !from_error_snd.
  destruct (from_update_keeps_entries update app k h) as (Huc & Huu).
  destruct (from_job_keeps_entries j app k h) as (Hjc & Hju).
  destruct (from_update_settings update app) as (Hub & Hup).
  destruct (from_job_settings j app) as (Hjb & Hjp).
  repeat split; auto.
Qed.

Lemma constructors_keep_stored_data_witness :
  entries (app_chat_data
             (snd (from_job {| job_chat_id := Some 9%Z; job_user_id := None |}
                     stocked_application))) !! 5%Z
  = Some (ChatData 0).
Proof.
  destruct (constructors_keep_stored_data stocked_application NoUpdate
              example_error {| job_chat_id := Some 9%Z; job_user_id := None |}
              None None 5%Z (ChatData 0)) as (Hchat & _).
  destruct Hchat as (_ & _ & Hjob); [reflexivity |].
  exact Hjob.
Defined.

(** ** Further properties of attribute assignment *)

(** X6. The properties without a setter ([application], [bot],
    [job_queue], [update_queue], [match]) cannot be assigned: [setattr],
    and so [update] with such a key, raises [AttributeError] and leaves the
    context as it was. In particular the first match is set through
    [matches], not through [match]. *)
Theorem readonly_property_assignment_raises (self : CallbackContext)
    (name : string) (v : value) :
  In name ["application"; "bot"; "job_queue"; "update_queue"; "match"] ->
  raises (fst (setattr self name v)) AttributeError
  /\ snd (setattr self name v) = self
  /\ raises (fst (update [(name, v)] self)) AttributeError
  /\ snd (update [(name, v)] self) = self.
Proof.
  intros Hname. simpl in Hname.
  repeat destruct Hname as [<- | Hname]; try contradiction;
    repeat split; eexists; reflexivity.
Qed.

Lemma readonly_property_assignment_raises_witness :
  raises (fst (update [("match", VMatch {| group0 := "a"; subgroups := [] |})]
                 __init__)) AttributeError.
Proof.
  destruct (readonly_property_assignment_raises __init__ "match"
              (VMatch {| group0 := "a"; subgroups := [] |}))
    as (_ & _ & Hupdate & _).
  - simpl. auto 6.
  - exact Hupdate.
Defined.






(** X9. The setters guard the accessor names only: [update] with the
    slot name [_chat_id_and_data] (or [_user_id_and_data]) and a pair
    returns, and the accessor then gives the second element of that
    pair. *)
Theorem update_of_private_slot_redirects_accessor (self : CallbackContext)
    (id data : value) :
  fst (update [("_chat_id_and_data", VTuple [id; data])] self) = Return tt
  /\ chat_data (snd (update [("_chat_id_and_data", VTuple [id; data])] self))
     = Return data
  /\ fst (update [("_user_id_and_data", VTuple [id; data])] self) = Return tt
  /\ user_data (snd (update [("_user_id_and_data", VTuple [id; data])] self))
     = Return data.
Proof. repeat split. Qed.

(** ** Further properties of [refresh_data] *)

Lemma refresh_data_of_pairs (self : CallbackContext) (app : Application) :
  application self = VApplication ->
  optional_id_and_data (_chat_id_and_data self) = true ->
  optional_id_and_data (_user_id_and_data self) = true ->
  refresh_data self app
  = (((if persists store_bot_data app
       then [refresh_bot_data (VData BotData)] else [])
      ++ (match _chat_id_and_data self with
          | VTuple [id; data] =>
              if persists store_chat_data app
              then [refresh_chat_data id data] else []
          | _ => []
          end)
      ++ (match _user_id_and_data self with
          | VTuple [id; data] =>
              if persists store_user_data app
              then [refresh_user_data id data] else []
          | _ => []
          end))%list, Return tt).
Proof.
  intros Happ Hchat Huser.
  apply optional_id_and_data_cases in Hchat as [Hc | (cid & ch & Hc)];
    apply optional_id_and_data_cases in Huser as [Hu | (uid & uh & Hu)];
    unfold refresh_data, bot_data, on_application, persists;
    rewrite Happ, Hc, Hu;
    destruct (app_persistence app) as [[b c u] |]; simpl;
    try reflexivity; destruct b, c, u; reflexivity.
Qed.

Lemma persists_after_from_update (category : PersistenceInput -> bool)
    (update : update_arg) (app : Application) :
  persists category (snd (from_update update app)) = persists category app.
Proof.
  unfold persists. now destruct (from_update_settings update app) as (_ & ->).
Qed.

Lemma persists_after_from_job (category : PersistenceInput -> bool)
    (j : Job) (app : Application) :
  persists category (snd (from_job j app)) = persists category app.
Proof.
  unfold persists. now destruct (from_job_settings j app) as (_ & ->).
Qed.

(** X10. Refreshing the context of an update raises nothing and awaits,
    in this order: the bot-data hook if bot data is persisted; the
    chat-data hook, with the effective chat's id and its data object, if
    chat data is persisted and the update has an effective chat; the
    user-data hook likewise for the effective user. *)
Theorem refresh_after_from_update (u : Update) (app : Application) :
  refresh_data (fst (from_update (AnUpdate u) app))
               (snd (from_update (AnUpdate u) app))
  = (((if persists store_bot_data app
       then [refresh_bot_data (VData BotData)] else [])
      ++ (match effective_chat u with
          | Some chat =>
              if persists store_chat_data app
              then [refresh_chat_data (VInt (chat_id chat))
                      (VData (fst (chat_data_getitem (chat_id chat) app)))]
              else []
          | None => []
          end)
      ++ (match effective_user u with
          | Some user =>
              if persists store_user_data app
              then [refresh_user_data (VInt (user_id user))
                      (VData (fst (user_data_getitem (user_id user) app)))]
              else []
          | None => []
          end))%list, Return tt).
Proof.
  destruct (from_update_well_typed (AnUpdate u) app) as (Happ & Hchat & Huser).
  rewrite (refresh_data_of_pairs _ _ Happ Hchat Huser).
  rewrite !persists_after_from_update.
  rewrite from_update_chat_slot, from_update_user_slot.
  now destruct (effective_chat u), (effective_user u).
Qed.

(** X11. Refreshing the context of a job raises nothing and awaits the
    bot-data hook if bot data is persisted, then the chat-data hook only
    for a chat id that is neither None nor 0 (and chat data persisted),
    then the user-data hook only for a user id that is neither None nor
    0 (and user data persisted). *)
Theorem refresh_after_from_job (j : Job) (app : Application) :
  refresh_data (fst (from_job j app)) (snd (from_job j app))
  = (((if persists store_bot_data app
       then [refresh_bot_data (VData BotData)] else [])
      ++ (match job_chat_id j with
          | Some id =>
              if negb (id =? 0)%Z && persists store_chat_data app
              then [refresh_chat_data (VInt id)
                      (VData (fst (chat_data_getitem id app)))]
              else []
          | None => []
          end)
      ++ (match job_user_id j with
          | Some id =>
              if negb (id =? 0)%Z && persists store_user_data app
              then [refresh_user_data (VInt id)
                      (VData (fst (user_data_getitem id app)))]
              else []
          | None => []
          end))%list, Return tt).
Proof.
  destruct (from_job_well_typed j app) as (Happ & Hchat & Huser).
  rewrite (refresh_data_of_pairs _ _ Happ Hchat Huser).
  rewrite !persists_after_from_job.
  rewrite from_job_chat_slot, from_job_user_slot.
  unfold given_id, truthy.
  destruct (job_chat_id j) as [c |], (job_user_id j) as [w |]; simpl;
    repeat match goal with
           | |- context [(?n =? 0)%Z] => destruct (n =? 0)%Z; simpl
           end; reflexivity.
Qed.

(** X12. In an error handler for an error without update (None, as for a
    job error, or an object that is no [Update]) a refresh awaits at most
    the bot-data hook: no chat or user data is refreshed, whatever the job
    targets. *)
Theorem refresh_of_error_context_without_update (update : update_arg)
    (err : exn) (app : Application) (j : option Job) (co : option nat) :
  (update = NoUpdate \/ exists v, update = OtherObject v) ->
  refresh_data (fst (from_error update err app j co))
               (snd (from_error update err app j co))
  = (if persists store_bot_data app
     then [refresh_bot_data (VData BotData)] else [], Return tt).
Proof.
  intros Hupdate.
  assert (Hbase : from_update update app = (__init__, app))
    by (destruct Hupdate as [-> | [v ->]]; reflexivity).
  rewrite from_error_fst, from_error_snd, Hbase. simpl.
  rewrite refresh_data_of_pairs by reflexivity.
  simpl. now rewrite app_nil_r.
Qed.

Lemma refresh_of_error_context_without_update_witness :
  refresh_data
    (fst (from_error NoUpdate example_error example_application
            (Some example_job) None))
    (snd (from_error NoUpdate example_error example_application
            (Some example_job) None))
  = ([refresh_bot_data (VData BotData)], Return tt).
Proof.
  rewrite (refresh_of_error_context_without_update NoUpdate example_error
             example_application (Some example_job) None); [reflexivity |].
  now left.
Defined.

(** ** Further properties of [update] *)

Lemma setattr_assignable_comm (self : CallbackContext) (k1 k2 : string)
    (v1 v2 : value) :
  assignable k1 = true -> assignable k2 = true -> k1 <> k2 ->
  snd (setattr (snd (setattr self k1 v1)) k2 v2)
  = snd (setattr (snd (setattr self k2 v2)) k1 v1).
Proof.
  unfold assignable, setattr. intros H1 H2 Hne.
  destruct (classify k1) as [| s1 | | |] eqn:Hk1; try discriminate;
    destruct (classify k2) as [| s2 | | |] eqn:Hk2; try discriminate; simpl.
  - assert (Hs : s1 <> s2).
    { intros ->. apply Hne.
      now rewrite (classify_KSlot_inv _ _ Hk1), (classify_KSlot_inv _ _ Hk2). }
    destruct s1, s2; first [reflexivity | now contradiction Hs].
  - now destruct s1.
  - now destruct s2.
  - unfold set_dict; simpl. f_equal. now apply insert_insert_ne.
Qed.

Lemma update_snd_permutation (data data' : list (string * value)) :
  Permutation data data' ->
  forall self,
    all_assignable data -> List.NoDup (map fst data) ->
    snd (update data' self) = snd (update data self).
Proof.
  induction 1 as [| [k v] l l' Hperm IH | [k1 v1] [k2 v2] l | l l' l'' H1 IH1 H2 IH2];
    intros self Hall Hkeys.
  - reflexivity.
  - inversion Hall as [| ? ? Hk Hl]; subst.
    simpl in Hkeys. apply NoDup_cons_iff in Hkeys as [_ Hkeys].
    rewrite !update_cons_assignable by exact Hk. now apply IH.
  - inversion Hall as [| ? ? Hk1 Hl]; subst.
    inversion Hl as [| ? ? Hk2 _]; subst. simpl in Hk1, Hk2.
    simpl in Hkeys. apply NoDup_cons_iff in Hkeys as [Hfresh _].
    rewrite !update_cons_assignable by assumption.
    rewrite (setattr_assignable_comm self k2 k1) by (simpl in Hfresh; intuition).
    reflexivity.
  - rewrite IH2.
    + now apply IH1.
    + exact (Permutation_Forall H1 Hall).
    + exact (Permutation_NoDup (Permutation_map fst H1) Hkeys).
Qed.

(** X13. When every key of the mapping is a slot or a name unknown to the
    class, the order of its items does not matter: [update] on any
    reordering of the items returns and leaves the same context. *)
Theorem update_order_irrelevant (data data' : list (string * value))
    (self : CallbackContext) :
  all_assignable data ->
  List.NoDup (map fst data) ->
  Permutation data data' ->
  update data' self = update data self.
Proof.
  intros Hall Hkeys Hperm.
  pose proof (update_snd_permutation data data' Hperm self Hall Hkeys) as Hsnd.
  destruct (update_assignable data self Hall Hkeys) as (Hok & _).
  destruct (update_assignable data' self (Permutation_Forall Hperm Hall)
              (Permutation_NoDup (Permutation_map fst Hperm) Hkeys))
    as (Hok' & _).
  destruct (update data self), (update data' self); simpl in *. congruence.
Qed.

Lemma update_order_irrelevant_witness :
  update [("note", VInt 1); ("args", VList [VStr "a"])] __init__
  = update [("args", VList [VStr "a"]); ("note", VInt 1)] __init__.
Proof.
  apply update_order_irrelevant.
  - repeat constructor.
  - repeat constructor; simpl; intros Hin;
      repeat destruct Hin as [Hin | Hin]; try discriminate; exact Hin.
  - apply perm_swap.
Defined.




